(** * Chat client of the observability assistant: model and properties

    Shallow embedding of [services/chat-frontend/src/components/ChatInterface.js].

    The component keeps six pieces of React state ([messages], [inputMessage],
    [isConnected], [isLoading], [quickQueries], [sessionId]); its socket
    handlers, its catalog loader and [sendMessage] update them.  Every handler
    runs to completion on the single event loop, so a handler is modelled as a
    function from the committed state to the next committed state together
    with the effects it performed on the outside world (socket emits, console
    output).  Functional updates [setMessages(prev => [...prev, m])] are
    applied to the latest state; the value read by each [Date.now()] and
    [new Date()] call is an input of the handler. *)

From Stdlib Require Import List ZArith NArith String Ascii Bool Lia DecimalString.
From Stdlib Require Import Permutation.
Import ListNotations.

Local Open Scope list_scope.

(* ================================================================== *)
(** ** JavaScript strings *)

(** A JavaScript string is a finite sequence of UTF-16 code units. *)
Definition code_unit := N.
Definition jsstring := list code_unit.

(** String literals of the source, which are all ASCII. *)
Definition js (s : string) : jsstring :=
  map N_of_ascii (list_ascii_of_string s).

(** [s === t] on strings. *)
Fixpoint str_eqb (s t : jsstring) : bool :=
  match s, t with
  | [], [] => true
  | c :: s', d :: t' => N.eqb c d && str_eqb s' t'
  | _, _ => false
  end.

(** [WhiteSpace] and [LineTerminator] code points of ECMAScript, the ones
    [String.prototype.trim] strips. *)
Definition is_white_space (c : code_unit) : bool :=
  (N.eqb c 0x09 || N.eqb c 0x0A || N.eqb c 0x0B || N.eqb c 0x0C
   || N.eqb c 0x0D || N.eqb c 0x20 || N.eqb c 0xA0 || N.eqb c 0x1680
   || (N.leb 0x2000 c && N.leb c 0x200A)
   || N.eqb c 0x2028 || N.eqb c 0x2029 || N.eqb c 0x202F
   || N.eqb c 0x205F || N.eqb c 0x3000 || N.eqb c 0xFEFF)%bool.

Fixpoint trimStart (s : jsstring) : jsstring :=
  match s with
  | [] => []
  | c :: s' => if is_white_space c then trimStart s' else s
  end.

Definition trimEnd (s : jsstring) : jsstring := rev (trimStart (rev s)).

(** [s.trim()] *)
Definition trim (s : jsstring) : jsstring := trimEnd (trimStart s).

(** Truthiness of a string: only the empty string is falsy. *)
Definition truthy (s : jsstring) : bool :=
  match s with [] => false | _ :: _ => true end.

(** The text is empty or made of white space only. *)
Definition blank (s : jsstring) : bool := forallb is_white_space s.

(* ================================================================== *)
(** ** Numbers and dates *)

(** [Date.now()] returns an integral number of milliseconds; its magnitude is
    far below 1e21, so [ToString] prints it in plain decimal notation. *)
Definition Number_toString (n : Z) : jsstring :=
  js (NilZero.string_of_int (Z.to_int n)).

(** A [Date] object, kept as the argument it was constructed from:
    [new Date(str)] or [new Date()] at a given clock reading. *)
Inductive Date : Type :=
| Date_parse (s : jsstring)
| Date_at (ms : Z).

(* ================================================================== *)
(** ** Exceptions *)

Inductive Exn : Type :=
| NetworkError
| BadStatus (status : Z)
| TypeError.

Inductive Result (A : Type) : Type :=
| Return (a : A)
| Throw (e : Exn).
Arguments Return {A} a.
Arguments Throw {A} e.

Definition bind {A B : Type} (m : Result A) (k : A -> Result B) : Result B :=
  match m with
  | Return a => k a
  | Throw e => Throw e
  end.

(** [try { body } catch (error) { handler(error) }] *)
Definition try_catch {A : Type} (body : Result A) (handler : Exn -> Result A)
  : Result A :=
  match body with
  | Return a => Return a
  | Throw e => handler e
  end.

Notation "x <- m ;; k" := (bind m (fun x => k))
  (at level 61, m at next level, right associativity).

(* ================================================================== *)
(** ** Data model *)

Inductive MessageType : Type := user | assistant | error.

(** [metadata] of a response: up to three summaries, each with a [count]. *)
Module Metadata.
Record t : Type := mk
  { metrics : option Z;
    logs : option Z;
    traces : option Z }.
End Metadata.

(** An entry of [messages].  An absent property reads [undefined]: [None]. *)
Module Message.
Record t : Type := mk
  { id : Z;
    type : MessageType;
    content : jsstring;
    timestamp : Date;
    metadata : option Metadata.t;
    suggestions : option (list jsstring) }.
End Message.

(** Payload of the inbound [response] event. *)
Module ResponseData.
Record t : Type := mk
  { response : jsstring;
    timestamp : jsstring;
    metadata : option Metadata.t;
    suggestions : option (list jsstring) }.
End ResponseData.

(** Payload of the inbound [error] event. *)
Module ErrorData.
Record t : Type := mk
  { error : jsstring;
    timestamp : jsstring }.
End ErrorData.

(** Payload of the outbound [message] event. *)
Module Payload.
Record t : Type := mk
  { message : jsstring;
    session_id : jsstring;
    include_metrics : bool;
    include_logs : bool;
    include_traces : bool;
    time_range : jsstring }.
End Payload.

(** An entry of the array served by [GET /quick-queries]. *)
Module QuickQuery.
Record t : Type := mk
  { query : jsstring;
    category : jsstring;
    description : jsstring }.
End QuickQuery.

(** What a handler does to the outside world. *)
Inductive Effect : Type :=
| Emit (event : jsstring) (payload : Payload.t)
| ConsoleLog (text : jsstring)
| ConsoleError (text : jsstring) (e : Exn)
| PreventDefault.

(** The state hooks of [ChatInterface]. *)
Record State : Type := mkState
  { messages : list Message.t;
    inputMessage : jsstring;
    isConnected : bool;
    isLoading : bool;
    quickQueries : list QuickQuery.t;
    sessionId : jsstring }.

Definition setMessages (f : list Message.t -> list Message.t) (s : State) :=
  mkState (f (messages s)) (inputMessage s) (isConnected s) (isLoading s)
          (quickQueries s) (sessionId s).

Definition setInputMessage (v : jsstring) (s : State) :=
  mkState (messages s) v (isConnected s) (isLoading s)
          (quickQueries s) (sessionId s).

Definition setIsConnected (b : bool) (s : State) :=
  mkState (messages s) (inputMessage s) b (isLoading s)
          (quickQueries s) (sessionId s).

Definition setIsLoading (b : bool) (s : State) :=
  mkState (messages s) (inputMessage s) (isConnected s) b
          (quickQueries s) (sessionId s).

Definition setQuickQueries (q : list QuickQuery.t) (s : State) :=
  mkState (messages s) (inputMessage s) (isConnected s) (isLoading s)
          q (sessionId s).

(** State of the first render; [now] is the reading of [Date.now()] in the
    lazy initialiser of [sessionId]. *)
Definition init (now : Z) : State :=
  mkState [] [] false false [] (js "session_" ++ Number_toString now).

(* ================================================================== *)
(** ** Socket handlers *)

(** [socket.on('connect', ...)] *)
Definition onConnect (s : State) : State * list Effect :=
  (setIsConnected true s, [ConsoleLog (js "Connected to chat server")]).

(** [socket.on('disconnect', ...)] *)
Definition onDisconnect (s : State) : State * list Effect :=
  (setIsConnected false s, [ConsoleLog (js "Disconnected from chat server")]).

(** The object literal appended by the [response] handler. *)
Definition assistantMessage (data : ResponseData.t) (now : Z) : Message.t :=
  Message.mk now assistant (ResponseData.response data)
             (Date_parse (ResponseData.timestamp data))
             (ResponseData.metadata data) (ResponseData.suggestions data).

(** [socket.on('response', ...)] *)
Definition onResponse (data : ResponseData.t) (now : Z) (s : State)
  : State * list Effect :=
  let s := setIsLoading false s in
  let s := setMessages (fun prev => prev ++ [assistantMessage data now]) s in
  (s, []).

(** The object literal appended by the [error] handler; it has no
    [metadata] and no [suggestions] property. *)
Definition errorMessage (data : ErrorData.t) (now : Z) : Message.t :=
  Message.mk now error (js "Error: " ++ ErrorData.error data)
             (Date_parse (ErrorData.timestamp data)) None None.

(** [socket.on('error', ...)] *)
Definition onError (data : ErrorData.t) (now : Z) (s : State)
  : State * list Effect :=
  let s := setIsLoading false s in
  let s := setMessages (fun prev => prev ++ [errorMessage data now]) s in
  (s, []).

(* ================================================================== *)
(** ** Loading the quick queries *)

(** How the HTTP request of [axios.get] ends. *)
Inductive HttpOutcome : Type :=
| Unreachable
| Responded (status : Z) (data : list QuickQuery.t).

(** [await axios.get(url)]: the promise is rejected when no response arrives
    and, with the default [validateStatus], when the status is outside
    200..299. *)
Definition axios_get (o : HttpOutcome) : Result (list QuickQuery.t) :=
  match o with
  | Unreachable => Throw NetworkError
  | Responded status data =>
      if (200 <=? status)%Z && (status <? 300)%Z then Return data
      else Throw (BadStatus status)
  end.

(** [loadQuickQueries], once the request has settled with outcome [o]. *)
Definition loadQuickQueries (o : HttpOutcome) (s : State)
  : Result (State * list Effect) :=
  try_catch
    (data <- axios_get o ;;
     Return (setQuickQueries data s, []))
    (fun e =>
       Return (s, [ConsoleError (js "Failed to load quick queries:") e])).

(* ================================================================== *)
(** ** Sending *)

(** The object literal [userMessage]; [now] is read by [Date.now()] and
    [today] by [new Date()]. *)
Definition userMessage (message : jsstring) (now today : Z) : Message.t :=
  Message.mk now user message (Date_at today) None None.

(** The payload of [socketRef.current.emit('message', ...)]. *)
Definition messagePayload (message : jsstring) (s : State) : Payload.t :=
  Payload.mk message (sessionId s) true true true (js "1h").

(** [sendMessage(message)] *)
Definition sendMessage (message : jsstring) (now today : Z) (s : State)
  : State * list Effect :=
  if negb (truthy (trim message)) || negb (isConnected s) then (s, [])
  else
    let s1 := setMessages (fun prev => prev ++ [userMessage message now today]) s in
    let s2 := setIsLoading true s1 in
    let fx := [Emit (js "message") (messagePayload message s)] in
    (setInputMessage [] s2, fx).

(** [handleKeyPress(event)]; a call of [sendMessage()] without argument takes
    the default [message = inputMessage]. *)
Definition handleKeyPress (key : jsstring) (shiftKey : bool) (now today : Z)
  (s : State) : State * list Effect :=
  if str_eqb key (js "Enter") && negb shiftKey then
    let (s', fx) := sendMessage (inputMessage s) now today s in
    (s', PreventDefault :: fx)
  else (s, []).

(** [handleQuickQuery(query)] *)
Definition handleQuickQuery (query : jsstring) (now today : Z) (s : State)
  : State * list Effect :=
  sendMessage query now today s.

(* ================================================================== *)
(** ** Objects used as maps *)

(** Result of the property read [acc[k]]. *)
Inductive Slot (V : Type) : Type :=
| Own (v : V)
| Inherited
| Undefined.
Arguments Own {V} v.
Arguments Inherited {V}.
Arguments Undefined {V}.

(** An ordinary object created by the literal [{}]: its own properties in
    creation order.  Its prototype is [Object.prototype]. *)
Definition JsObject (V : Type) : Type := list (jsstring * V).

(** Property names found on [Object.prototype].  Each holds a function or, for
    [__proto__], the prototype object itself: a truthy value without a [push]
    method. *)
Definition Object_prototype_names : list jsstring :=
  map js
    [ "constructor"; "hasOwnProperty"; "isPrototypeOf"; "propertyIsEnumerable";
      "toLocaleString"; "toString"; "valueOf"; "__proto__";
      "__defineGetter__"; "__defineSetter__";
      "__lookupGetter__"; "__lookupSetter__" ]%string.

Definition inherited_name (k : jsstring) : bool :=
  existsb (str_eqb k) Object_prototype_names.

Fixpoint own_get {V : Type} (o : JsObject V) (k : jsstring) : option V :=
  match o with
  | [] => None
  | (k', v) :: o' => if str_eqb k' k then Some v else own_get o' k
  end.

(** [o[k]]: the own property if there is one, else the prototype's. *)
Definition get {V : Type} (o : JsObject V) (k : jsstring) : Slot V :=
  match own_get o k with
  | Some v => Own v
  | None => if inherited_name k then Inherited else Undefined
  end.

(** [o[k] = v] for a name that is own or not found at all: an own property
    keeps its place, a new one is created last. *)
Fixpoint set {V : Type} (o : JsObject V) (k : jsstring) (v : V) : JsObject V :=
  match o with
  | [] => [(k, v)]
  | (k', v') :: o' =>
      if str_eqb k' k then (k', v) :: o' else (k', v') :: set o' k v
  end.

Definition digit (c : code_unit) : option N :=
  if (N.leb 48 c && N.leb c 57)%bool then Some (c - 48)%N else None.

Fixpoint parse_digits (s : jsstring) (acc : N) : option N :=
  match s with
  | [] => Some acc
  | c :: s' =>
      match digit c with
      | Some d => parse_digits s' (acc * 10 + d)%N
      | None => None
      end
  end.

(** An array index is a canonical numeric string (decimal digits without a
    leading zero) whose value is at most 2^32 - 2. *)
Definition array_index (k : jsstring) : option N :=
  match k with
  | [] => None
  | c :: rest =>
      if (N.eqb c 48 && truthy rest)%bool then None
      else
        match parse_digits k 0 with
        | Some n => if (n <? 4294967295)%N then Some n else None
        | None => None
        end
  end.

Definition is_array_index (k : jsstring) : bool :=
  match array_index k with Some _ => true | None => false end.

Fixpoint insert_by_index {E : Type} (n : N) (e : E) (l : list (N * E))
  : list (N * E) :=
  match l with
  | [] => [(n, e)]
  | (m, e') :: l' =>
      if (n <=? m)%N then (n, e) :: l else (m, e') :: insert_by_index n e l'
  end.

Fixpoint index_entries {V : Type} (o : JsObject V)
  : list (N * (jsstring * V)) :=
  match o with
  | [] => []
  | (k, v) :: o' =>
      match array_index k with
      | Some n => insert_by_index n (k, v) (index_entries o')
      | None => index_entries o'
      end
  end.

(** [Object.entries(o)]: own properties in the order of
    [OrdinaryOwnPropertyKeys], array indices first in ascending numeric
    order, then the other names in creation order. *)
Definition Object_entries {V : Type} (o : JsObject V) : list (jsstring * V) :=
  map snd (index_entries o)
  ++ filter (fun e => negb (is_array_index (fst e))) o.

(** [array.reduce(callback, initial)] with a callback that may throw. *)
Fixpoint reduce {A B : Type} (callback : B -> A -> Result B) (array : list A)
  (acc : B) : Result B :=
  match array with
  | [] => Return acc
  | x :: array' => acc' <- callback acc x ;; reduce callback array' acc'
  end.

(** The callback of [quickQueries.reduce]. *)
Definition groupQuery (acc : JsObject (list QuickQuery.t)) (query : QuickQuery.t)
  : Result (JsObject (list QuickQuery.t)) :=
  let k := QuickQuery.category query in
  (* if (!acc[k]) acc[k] = []; arrays, functions and objects are truthy *)
  let acc1 := match get acc k with
              | Undefined => set acc k []
              | Own _ | Inherited => acc
              end in
  (* acc[k].push(query) *)
  match get acc1 k with
  | Own arr => Return (set acc1 k (arr ++ [query]))
  | Inherited | Undefined => Throw TypeError
  end.

Definition quickQueryCategories (quickQueries : list QuickQuery.t)
  : Result (JsObject (list QuickQuery.t)) :=
  reduce groupQuery quickQueries [].

(** The categories as the panel renders them:
    [Object.entries(quickQueryCategories)]. *)
Definition renderedCategories (quickQueries : list QuickQuery.t)
  : Result (list (jsstring * list QuickQuery.t)) :=
  o <- quickQueryCategories quickQueries ;; Return (Object_entries o).

(* ================================================================== *)
(** ** The event loop *)

(** Everything that can happen to the mounted component.  Events that read
    the clock carry the readings. *)
Inductive Event : Type :=
| Connect
| Disconnect
| Response (data : ResponseData.t) (now : Z)
| ErrorEvent (data : ErrorData.t) (now : Z)
| QuickQueriesSettled (o : HttpOutcome)
| ChangeInput (value : jsstring)
| KeyPress (key : jsstring) (shiftKey : bool) (now today : Z)
| ClickSend (now today : Z)
| ClickQuickQuery (q : QuickQuery.t) (now today : Z)
| ClickSuggestion (suggestion : jsstring) (now today : Z).

(** [disabled={!isConnected || isLoading}] of the text field. *)
Definition inputDisabled (s : State) : bool :=
  negb (isConnected s) || isLoading s.

(** [disabled={!inputMessage.trim() || !isConnected || isLoading}] of the
    send button. *)
Definition sendDisabled (s : State) : bool :=
  negb (truthy (trim (inputMessage s))) || negb (isConnected s) || isLoading s.

(** One turn of the event loop.  A disabled control delivers no event; the
    quick-query cards and the suggestion chips are never disabled. *)
Definition step (e : Event) (s : State) : State * list Effect :=
  match e with
  | Connect => onConnect s
  | Disconnect => onDisconnect s
  | Response data now => onResponse data now s
  | ErrorEvent data now => onError data now s
  | QuickQueriesSettled o =>
      match loadQuickQueries o s with
      | Return r => r
      | Throw _ => (s, [])
      end
  | ChangeInput value =>
      if inputDisabled s then (s, []) else (setInputMessage value s, [])
  | KeyPress key shiftKey now today =>
      if inputDisabled s then (s, [])
      else handleKeyPress key shiftKey now today s
  | ClickSend now today =>
      if sendDisabled s then (s, [])
      else sendMessage (inputMessage s) now today s
  | ClickQuickQuery q now today =>
      handleQuickQuery (QuickQuery.query q) now today s
  | ClickSuggestion suggestion now today =>
      handleQuickQuery suggestion now today s
  end.

Fixpoint run (evs : list Event) (s : State) : State * list Effect :=
  match evs with
  | [] => (s, [])
  | e :: evs' =>
      let (s1, fx1) := step e s in
      let (s2, fx2) := run evs' s1 in
      (s2, fx1 ++ fx2)
  end.

(** The states the client can be in: those a run from the first render
    ends in. *)
Definition reachable (s : State) : Prop :=
  exists now evs, s = fst (run evs (init now)).

(** The [message] events among the effects. *)
Fixpoint emitted (fx : list Effect) : list (jsstring * Payload.t) :=
  match fx with
  | [] => []
  | Emit ev p :: fx' => (ev, p) :: emitted fx'
  | _ :: fx' => emitted fx'
  end.

(* ================================================================== *)
(** ** Properties named by the specification *)

(** Identifiers are unique within a log: entries at two different positions
    have different identifiers. *)
Definition unique_ids (log : list Message.t) : Prop :=
  forall i j mi mj,
    nth_error log i = Some mi -> nth_error log j = Some mj ->
    i <> j -> Message.id mi <> Message.id mj.

(** Membership of a name in a list of names. *)
Definition mem (k : jsstring) (ks : list jsstring) : bool :=
  existsb (str_eqb k) ks.

(** The names of a sequence in the order of their first occurrence. *)
Fixpoint first_seen (ks : list jsstring) : list jsstring :=
  match ks with
  | [] => []
  | k :: ks' => k :: filter (fun k' => negb (str_eqb k k')) (first_seen ks')
  end.

(** The queries of one category, in their original relative order. *)
Definition in_category (c : jsstring) (qs : list QuickQuery.t)
  : list QuickQuery.t :=
  filter (fun q => str_eqb (QuickQuery.category q) c) qs.

(** Stable grouping as the specification words it: one bucket per category,
    categories in first-seen order, every bucket in arrival order. *)
Definition group_first_seen (qs : list QuickQuery.t)
  : list (jsstring * list QuickQuery.t) :=
  map (fun c => (c, in_category c qs))
      (first_seen (map QuickQuery.category qs)).

(** The reading of [Date.now()] an event hands to the message it may
    append. *)
Definition id_reading (e : Event) : option Z :=
  match e with
  | Response _ now | ErrorEvent _ now | KeyPress _ _ now _ | ClickSend now _
  | ClickQuickQuery _ now _ | ClickSuggestion _ now _ => Some now
  | Connect | Disconnect | QuickQueriesSettled _ | ChangeInput _ => None
  end.

(** The readings of a run grow strictly, starting above [bound]. *)
Fixpoint readings_increase (bound : Z) (evs : list Event) : Prop :=
  match evs with
  | [] => True
  | e :: evs' =>
      match id_reading e with
      | Some now => (bound < now)%Z /\ readings_increase now evs'
      | None => readings_increase bound evs'
      end
  end.

(** A category name that is neither an array index nor a name found on
    [Object.prototype]. *)
Definition plain_name (k : jsstring) : bool :=
  negb (is_array_index k) && negb (inherited_name k).

(** The request of [loadQuickQueries] failed: the backend was unreachable or
    answered with a non-success status. *)
Definition load_failed (o : HttpOutcome) : Prop :=
  match o with
  | Unreachable => True
  | Responded status _ => ~ (200 <= status < 300)%Z
  end.

(* ================================================================== *)
(** ** What the chat panel renders *)

(** The welcome block is rendered under [messages.length === 0]. *)
Definition showsWelcome (s : State) : bool :=
  match messages s with [] => true | _ :: _ => false end.

(** A caption of the metadata block, as its three children: a text, the
    number [count], a text. *)
Definition Caption : Type := (jsstring * Z * jsstring)%type.

(** [formatMetadata(metadata)]: [null] without metadata, else a block with
    one caption per section present, in the order metrics, logs, traces. *)
Definition formatMetadata (metadata : option Metadata.t)
  : option (list Caption) :=
  match metadata with
  | None => None
  | Some md =>
      Some
        ((match Metadata.metrics md with
          | Some count => [(js "Metrics analyzed: ", count, js " data points")]
          | None => []
          end)
         ++ (match Metadata.logs md with
             | Some count => [(js "Logs analyzed: ", count, js " entries")]
             | None => []
             end)
         ++ (match Metadata.traces md with
             | Some count => [(js "Traces analyzed: ", count, js " spans")]
             | None => []
             end))
  end.

(** The chips under a message:
    [message.suggestions && message.suggestions.length > 0 && ...]. *)
Definition suggestionChips (m : Message.t) : list jsstring :=
  match Message.suggestions m with
  | Some (c :: cs) => c :: cs
  | Some [] | None => []
  end.

(** The texts of the user messages of a log, and the texts of the emitted
    [message] events. *)
Definition userTexts (log : list Message.t) : list jsstring :=
  map Message.content
      (filter (fun m => match Message.type m with user => true | _ => false end)
              log).

Definition emittedTexts (fx : list Effect) : list jsstring :=
  map (fun ep => Payload.message (snd ep)) (emitted fx).

(** The events that lower [isLoading]. *)
Definition is_answer (e : Event) : bool :=
  match e with
  | Response _ _ | ErrorEvent _ _ => true
  | _ => false
  end.

(** The catalog held after an event, were it to depend on nothing but the
    request outcomes: the data of a successful load replaces it. *)
Definition catalog_after (catalog : list QuickQuery.t) (e : Event)
  : list QuickQuery.t :=
  match e with
  | QuickQueriesSettled (Responded status data) =>
      if (200 <=? status)%Z && (status <? 300)%Z then data else catalog
  | _ => catalog
  end.

(** The connection flag after an event, were it to depend on nothing but the
    socket's own [connect] and [disconnect] events. *)
Definition connection_after (flag : bool) (e : Event) : bool :=
  match e with
  | Connect => true
  | Disconnect => false
  | _ => flag
  end.

(** No category of the catalog is a name found on [Object.prototype]. *)
Definition no_inherited_category (qs : list QuickQuery.t) : bool :=
  forallb (fun q => negb (inherited_name (QuickQuery.category q))) qs.

(* ================================================================== *)
(** ** The system status page *)

(** [SystemStatus], whose source follows [ChatInterface] in the same file. *)

(** An entry of [services]; [response_time] is a floating-point number of
    seconds and is left out together with the cell that formats it. *)
Module ServiceData.
Record t : Type := mk
  { status : jsstring;
    error : option jsstring;
    status_code : option Z }.
End ServiceData.

(** An object served by [GET /status]. *)
Module StatusData.
Record t : Type := mk
  { status : option jsstring;
    services : JsObject ServiceData.t;
    timestamp : option jsstring }.
End StatusData.

(** The state hooks of [SystemStatus]. *)
Record StatusState : Type := mkStatusState
  { systemStatus : option StatusData.t;
    loading : bool;
    statusError : option jsstring }.

Definition statusInit : StatusState := mkStatusState None true None.

(** How the HTTP request for the status ends, and [await axios.get(url)] on
    it.  The body [data] of a response is [null] ([None]) or an object. *)
Inductive StatusOutcome : Type :=
| StatusUnreachable
| StatusResponded (status : Z) (data : option StatusData.t).

Definition axios_get_status (o : StatusOutcome)
  : Result (option StatusData.t) :=
  match o with
  | StatusUnreachable => Throw NetworkError
  | StatusResponded status data =>
      if (200 <=? status)%Z && (status <? 300)%Z then Return data
      else Throw (BadStatus status)
  end.

(** A block of an async function of the page: it ends normally or by an
    exception, and either way leaves a state and the effects performed. *)
Definition Block : Type :=
  StatusState -> option Exn * StatusState * list Effect.

(** [try { body } catch (err) { handler(err) } finally { cleanup }]: the
    cleanup runs whichever way the first two blocks end, and an exception of
    its own would replace theirs. *)
Definition try_catch_finally (body : Block) (handler : Exn -> Block)
  (cleanup : Block) : Block :=
  fun st =>
    let '(r1, st1, fx1) := body st in
    let '(r2, st2, fx2) :=
      match r1 with
      | None => (None, st1, fx1)
      | Some e =>
          let '(r, st', fx) := handler e st1 in (r, st', fx1 ++ fx)
      end in
    let '(r3, st3, fx3) := cleanup st2 in
    (match r3 with Some e => Some e | None => r2 end, st3, fx2 ++ fx3).

(** [setSystemStatus(response.data)] stores the body as it was served. *)
Definition setSystemStatus (data : option StatusData.t) (st : StatusState) :=
  mkStatusState data (loading st) (statusError st).

Definition setLoading (b : bool) (st : StatusState) :=
  mkStatusState (systemStatus st) b (statusError st).

Definition setError (e : option jsstring) (st : StatusState) :=
  mkStatusState (systemStatus st) (loading st) e.

(** [fetchStatus] up to its [await]: [setLoading(true)]. *)
Definition fetchStatus_begin (st : StatusState) : StatusState :=
  setLoading true st.

(** [fetchStatus] from its [await] on, the request having ended with [o]:
    the rest of the [try] block, the [catch] block and the [finally]
    block. *)
Definition fetchStatus_settle (o : StatusOutcome) : Block :=
  try_catch_finally
    (fun st =>
       match axios_get_status o with
       | Return data => (None, setError None (setSystemStatus data st), [])
       | Throw e => (Some e, st, [])
       end)
    (fun err st =>
       (None, setError (Some (js "Failed to fetch system status")) st,
        [ConsoleError (js "Status fetch error:") err]))
    (fun st => (None, setLoading false st, [])).

(** Which of the three [return] statements of the render is taken. *)
Inductive StatusView : Type :=
| ViewSpinner
| ViewError (text : jsstring)
| ViewPage (data : option StatusData.t).

Definition statusView (st : StatusState) : StatusView :=
  if loading st then ViewSpinner
  else
    match statusError st with
    | Some text => if truthy text then ViewError text
                   else ViewPage (systemStatus st)
    | None => ViewPage (systemStatus st)
    end.

(** What happens to the mounted status page: the effect or the timer calls
    [fetchStatus], and a request settles. *)
Inductive StatusEvent : Type :=
| FetchBegin
| FetchSettled (o : StatusOutcome).

Definition statusStep (e : StatusEvent) (st : StatusState) : StatusState :=
  match e with
  | FetchBegin => fetchStatus_begin st
  | FetchSettled o => snd (fst (fetchStatus_settle o st))
  end.

(** The page after a sequence of events, from its first render. *)
Definition statusRun (evs : list StatusEvent) : StatusState :=
  fold_left (fun st e => statusStep e st) evs statusInit.

Inductive Icon : Type := HealthyIcon | UnhealthyIcon | DegradedIcon | UnknownIcon.

Inductive Color : Type :=
| success | error_color | warning | disabled | default_color.

(** [getStatusIcon(status)]: the icon and its [color] property. *)
Definition getStatusIcon (status : jsstring) : Icon * Color :=
  if str_eqb status (js "healthy") then (HealthyIcon, success)
  else if str_eqb status (js "unhealthy") then (UnhealthyIcon, error_color)
  else if str_eqb status (js "degraded") then (DegradedIcon, warning)
  else if str_eqb status (js "unreachable") then (UnhealthyIcon, error_color)
  else (UnknownIcon, disabled).

(** [getStatusColor(status)] *)
Definition getStatusColor (status : jsstring) : Color :=
  if str_eqb status (js "healthy") then success
  else if str_eqb status (js "unhealthy") then error_color
  else if str_eqb status (js "degraded") then warning
  else if str_eqb status (js "unreachable") then error_color
  else default_color.

(** [name.replace('_', ' ')]: a string pattern is replaced at its first
    occurrence only. *)
Fixpoint replace_underscore (name : jsstring) : jsstring :=
  match name with
  | [] => []
  | c :: rest =>
      if N.eqb c 95 then 32%N :: rest else c :: replace_underscore rest
  end.

(** The catalog of Scenario C. *)
Definition Q1 := QuickQuery.mk (js "Q1") (js "performance") (js "d1").
Definition Q2 := QuickQuery.mk (js "Q2") (js "performance") (js "d2").
Definition Q3 := QuickQuery.mk (js "Q3") (js "monitoring") (js "d3").

(** The payloads of Scenarios A and B. *)
Definition scenarioA : ResponseData.t :=
  ResponseData.mk (js "CPU at 42%") (js "2024-01-01T00:00:00Z") None None.
Definition scenarioB : ErrorData.t :=
  ErrorData.mk (js "backend timeout") (js "2024-01-01T00:00:01Z").

(** A freshly mounted client, the same client once connected, and once it
    awaits the answer to a first quick query. *)
Definition mounted : State := init 1704067200000.
Definition connected : State := fst (step Connect mounted).
Definition awaiting : State :=
  fst (step (ClickQuickQuery Q1 1704067201000 1704067201000) connected).

(** Two quick queries are sent one after the other and both answers are
    handled within the same millisecond. *)
Definition answer1 : ResponseData.t :=
  ResponseData.mk (js "CPU at 42%") (js "2024-01-01T00:00:05Z") None None.
Definition answer2 : ResponseData.t :=
  ResponseData.mk (js "3 alerts") (js "2024-01-01T00:00:05Z") None None.
Definition same_millisecond : list Event :=
  [ Connect;
    ClickQuickQuery Q1 1704067201000 1704067201000;
    ClickQuickQuery Q3 1704067202000 1704067202000;
    Response answer1 1704067205000;
    Response answer2 1704067205000 ].

(** A catalog with a category named by a status code. *)
Definition P1 := QuickQuery.mk (js "Q1") (js "performance") (js "d1").
Definition P2 := QuickQuery.mk (js "Q2") (js "500") (js "d2").

(* ================================================================== *)
(** ** Strings *)

Lemma str_eqb_eq (s t : jsstring) : str_eqb s t = true <-> s = t.
Proof.
  revert t; induction s as [|c s IH]; intros [|d t]; simpl;
    try (split; [discriminate | discriminate]); [tauto|].
  rewrite andb_true_iff, N.eqb_eq, IH.
  split; [intros [-> ->]; reflexivity | intros [= -> ->]; auto].
Qed.

Lemma str_eqb_refl (s : jsstring) : str_eqb s s = true.
Proof. apply str_eqb_eq; reflexivity. Qed.

Lemma str_eqb_neq (s t : jsstring) : str_eqb s t = false <-> s <> t.
Proof.
  rewrite <- str_eqb_eq. destruct (str_eqb s t); split; congruence.
Qed.

Lemma str_eqb_sym (s t : jsstring) : str_eqb s t = str_eqb t s.
Proof.
  destruct (str_eqb s t) eqn:E.
  - apply str_eqb_eq in E; subst; symmetry; apply str_eqb_refl.
  - destruct (str_eqb t s) eqn:E'; [|reflexivity].
    apply str_eqb_eq in E'; subst. rewrite str_eqb_refl in E; discriminate.
Qed.

Lemma trimStart_nil (s : jsstring) : trimStart s = [] <-> blank s = true.
Proof.
  induction s as [|c s IH]; simpl; [tauto|].
  destruct (is_white_space c); simpl; [exact IH | split; discriminate].
Qed.

Lemma blank_app (s t : jsstring) : blank (s ++ t) = blank s && blank t.
Proof. apply forallb_app. Qed.

Lemma blank_rev (s : jsstring) : blank (rev s) = blank s.
Proof.
  induction s as [|c s IH]; simpl; [reflexivity|].
  rewrite blank_app, IH; simpl. rewrite andb_true_r; apply andb_comm.
Qed.

Lemma blank_trimStart (s : jsstring) : blank (trimStart s) = blank s.
Proof.
  induction s as [|c s IH]; simpl; [reflexivity|].
  destruct (is_white_space c) eqn:E; simpl; [exact IH | rewrite E; reflexivity].
Qed.

(** The guard [!message.trim()] holds exactly for blank texts. *)
Lemma truthy_trim (s : jsstring) : truthy (trim s) = negb (blank s).
Proof.
  unfold trim, trimEnd.
  destruct (blank s) eqn:B; simpl.
  - apply trimStart_nil in B; rewrite B; reflexivity.
  - destruct (trimStart (rev (trimStart s))) as [|c r] eqn:T.
    + apply trimStart_nil in T.
      rewrite blank_rev, blank_trimStart in T; congruence.
    + simpl. destruct (rev r ++ [c]) eqn:R; [|reflexivity].
      destruct (rev r); discriminate.
Qed.

(* ================================================================== *)
(** ** The send operation *)

(** The two outcomes of [sendMessage]: the early return, or one appended
    user message, the loading flag raised, the input cleared and one emit. *)
Lemma sendMessage_cases (message : jsstring) (now today : Z) (s : State) :
  (blank message || negb (isConnected s) = true
   /\ sendMessage message now today s = (s, []))
  \/ (blank message = false /\ isConnected s = true
      /\ sendMessage message now today s =
           (mkState (messages s ++ [userMessage message now today]) []
                    true true (quickQueries s) (sessionId s),
            [Emit (js "message") (messagePayload message s)])).
Proof.
  unfold sendMessage. rewrite truthy_trim, negb_involutive.
  destruct (blank message); simpl; [left; auto|].
  destruct (isConnected s) eqn:C; simpl; [right | left; auto].
  repeat split. unfold setInputMessage, setIsLoading, setMessages; simpl.
  rewrite C; reflexivity.
Qed.

Ltac send_cases message now today s :=
  let H := fresh "H" in
  let E := fresh "E" in
  destruct (sendMessage_cases message now today s)
    as [[H E] | [H [? E]]]; rewrite E in *; simpl in *.

(** Every handler extends [messages] by a (possibly empty) suffix. *)
Lemma step_appends (e : Event) (s : State) :
  exists added, messages (fst (step e s)) = messages s ++ added.
Proof.
  destruct e; simpl.
  - exists []; simpl; now rewrite app_nil_r.
  - exists []; simpl; now rewrite app_nil_r.
  - eexists; reflexivity.
  - eexists; reflexivity.
  - exists []. rewrite app_nil_r.
    unfold loadQuickQueries. destruct (axios_get o); reflexivity.
  - exists []. rewrite app_nil_r. destruct (inputDisabled s); reflexivity.
  - destruct (inputDisabled s); [exists []; simpl; now rewrite app_nil_r|].
    unfold handleKeyPress.
    destruct (str_eqb key (js "Enter") && negb shiftKey);
      [|exists []; simpl; now rewrite app_nil_r].
    send_cases (inputMessage s) now today s;
      [exists []; now rewrite app_nil_r | eexists; reflexivity].
  - destruct (sendDisabled s); [exists []; simpl; now rewrite app_nil_r|].
    send_cases (inputMessage s) now today s;
      [exists []; now rewrite app_nil_r | eexists; reflexivity].
  - unfold handleQuickQuery.
    send_cases (QuickQuery.query q) now today s;
      [exists []; now rewrite app_nil_r | eexists; reflexivity].
  - unfold handleQuickQuery.
    send_cases suggestion now today s;
      [exists []; now rewrite app_nil_r | eexists; reflexivity].
Qed.

(** No handler writes [sessionId]. *)
Lemma step_sessionId (e : Event) (s : State) :
  sessionId (fst (step e s)) = sessionId s.
Proof.
  destruct e; simpl; try reflexivity.
  - unfold loadQuickQueries. destruct (axios_get o); reflexivity.
  - destruct (inputDisabled s); reflexivity.
  - destruct (inputDisabled s); [reflexivity|].
    unfold handleKeyPress.
    destruct (str_eqb key (js "Enter") && negb shiftKey); [|reflexivity].
    send_cases (inputMessage s) now today s; reflexivity.
  - destruct (sendDisabled s); [reflexivity|].
    send_cases (inputMessage s) now today s; reflexivity.
  - unfold handleQuickQuery.
    send_cases (QuickQuery.query q) now today s; reflexivity.
  - unfold handleQuickQuery.
    send_cases suggestion now today s; reflexivity.
Qed.

(** Whatever a handler emits is a [message] event built by
    [messagePayload] from the state the handler started in. *)
Lemma step_emitted (e : Event) (s : State) (ev : jsstring) (p : Payload.t) :
  In (ev, p) (emitted (snd (step e s))) ->
  ev = js "message" /\ exists text, p = messagePayload text s.
Proof.
  assert (S : forall message now today,
             In (ev, p) (emitted (snd (sendMessage message now today s))) ->
             ev = js "message" /\ exists text, p = messagePayload text s).
  { intros message now today.
    send_cases message now today s; [tauto|].
    intros [[= <- <-]|[]]. split; [reflexivity | eauto]. }
  destruct e; simpl; try tauto.
  - unfold loadQuickQueries. destruct (axios_get o); simpl; tauto.
  - destruct (inputDisabled s); simpl; tauto.
  - destruct (inputDisabled s); simpl; [tauto|].
    unfold handleKeyPress.
    destruct (str_eqb key (js "Enter") && negb shiftKey); simpl; [|tauto].
    specialize (S (inputMessage s) now today).
    destruct (sendMessage (inputMessage s) now today s); exact S.
  - destruct (sendDisabled s); simpl; [tauto | apply S].
  - apply S.
  - apply S.
Qed.

Lemma emitted_app (fx1 fx2 : list Effect) :
  emitted (fx1 ++ fx2) = emitted fx1 ++ emitted fx2.
Proof.
  induction fx1 as [|[] fx1 IH]; simpl; rewrite ?IH; reflexivity.
Qed.

Lemma run_cons (e : Event) (evs : list Event) (s : State) :
  run (e :: evs) s =
    (fst (run evs (fst (step e s))),
     snd (step e s) ++ snd (run evs (fst (step e s)))).
Proof.
  simpl. destruct (step e s) as [s1 fx1]; simpl.
  destruct (run evs s1); reflexivity.
Qed.

Lemma run_sessionId (evs : list Event) (s : State) :
  sessionId (fst (run evs s)) = sessionId s.
Proof.
  revert s; induction evs as [|e evs IH]; intros s; [reflexivity|].
  rewrite run_cons; simpl. rewrite IH. apply step_sessionId.
Qed.

Lemma run_appends (evs : list Event) (s : State) :
  exists added, messages (fst (run evs s)) = messages s ++ added.
Proof.
  revert s; induction evs as [|e evs IH]; intros s.
  - exists []; simpl; now rewrite app_nil_r.
  - rewrite run_cons; simpl.
    destruct (IH (fst (step e s))) as [a2 H2].
    destruct (step_appends e s) as [a1 H1].
    exists (a1 ++ a2). rewrite H2, H1, app_assoc. reflexivity.
Qed.

Lemma run_emitted (evs : list Event) (s : State) (ev : jsstring)
  (p : Payload.t) :
  In (ev, p) (emitted (snd (run evs s))) ->
  ev = js "message" /\ exists text, p = messagePayload text s.
Proof.
  revert s; induction evs as [|e evs IH]; intros s; [simpl; tauto|].
  rewrite run_cons; simpl. rewrite emitted_app, in_app_iff.
  intros [H|H]; [eapply step_emitted; eassumption|].
  apply IH in H. destruct H as [-> [text ->]].
  split; [reflexivity|]. exists text.
  unfold messagePayload. rewrite step_sessionId. reflexivity.
Qed.

(* ================================================================== *)
(** ** Inbound events *)

(** C1: handling a [response] event appends exactly one message of kind
    assistant whose content, metadata and suggestions are the payload's
    [response], [metadata] and [suggestions]; the messages already in the log
    stay as they were. *)
Theorem response_appends_one_assistant (data : ResponseData.t) (now : Z)
  (s : State) :
  exists m,
    messages (fst (step (Response data now) s)) = messages s ++ [m]
    /\ Message.type m = assistant
    /\ Message.content m = ResponseData.response data
    /\ Message.metadata m = ResponseData.metadata data
    /\ Message.suggestions m = ResponseData.suggestions data.
Proof.
  exists (assistantMessage data now). repeat split.
Qed.

(** Scenario A on a connected client with an empty log. *)
Example scenarioA_log :
  map (fun m => (Message.type m, Message.content m))
      (messages (fst (step (Response scenarioA 1704067200500) connected)))
  = [(assistant, js "CPU at 42%")].
Proof. reflexivity. Qed.

(** C2: handling an [error] event appends exactly one message of kind error
    whose content is ["Error: "] followed by the payload's [error]; the
    messages already in the log stay as they were. *)
Theorem error_appends_one_error (data : ErrorData.t) (now : Z) (s : State) :
  exists m,
    messages (fst (step (ErrorEvent data now) s)) = messages s ++ [m]
    /\ Message.type m = error
    /\ Message.content m = js "Error: " ++ ErrorData.error data.
Proof.
  exists (errorMessage data now). repeat split.
Qed.

(** Scenario B on a connected client with an empty log. *)
Example scenarioB_log :
  map (fun m => (Message.type m, Message.content m))
      (messages (fst (step (ErrorEvent scenarioB 1704067201500) connected)))
  = [(error, js "Error: backend timeout")].
Proof. reflexivity. Qed.

(* ================================================================== *)
(** ** Guards of the send operation *)

(** C4: a submission whose text is empty or white space only returns before
    anything is written: the state is unchanged and nothing is emitted. *)
Theorem sendMessage_blank (message : jsstring) (now today : Z) (s : State) :
  blank message = true ->
  sendMessage message now today s = (s, []).
Proof.
  intros B. send_cases message now today s; [reflexivity | congruence].
Qed.

Lemma sendMessage_blank_witness :
  sendMessage (js "  ") 1704067203000 1704067203000 connected
  = (connected, []).
Proof. apply sendMessage_blank. reflexivity. Defined.

(** C5: a submission made while disconnected returns before anything is
    written: the state, hence the log, is unchanged and nothing is emitted. *)
Theorem sendMessage_disconnected (message : jsstring) (now today : Z)
  (s : State) :
  isConnected s = false ->
  sendMessage message now today s = (s, []).
Proof.
  intros C. send_cases message now today s; [reflexivity | congruence].
Qed.

Lemma sendMessage_disconnected_witness :
  sendMessage (js "Show CPU usage") 1704067203000 1704067203000 mounted
  = (mounted, []).
Proof. apply sendMessage_disconnected. reflexivity. Defined.

(** The same guards seen from the controls: neither the Enter key, nor the
    send button, nor a card or chip gets a blank text or a disconnected
    client to append or emit. *)
Lemma handleQuickQuery_guarded (query : jsstring) (now today : Z) (s : State) :
  blank query || negb (isConnected s) = true ->
  handleQuickQuery query now today s = (s, []).
Proof.
  intros G. unfold handleQuickQuery.
  send_cases query now today s; [reflexivity|].
  rewrite H, H0 in G; discriminate.
Qed.

Lemma handleKeyPress_guarded (key : jsstring) (shiftKey : bool)
  (now today : Z) (s : State) :
  blank (inputMessage s) || negb (isConnected s) = true ->
  fst (handleKeyPress key shiftKey now today s) = s
  /\ emitted (snd (handleKeyPress key shiftKey now today s)) = [].
Proof.
  intros G. unfold handleKeyPress.
  destruct (str_eqb key (js "Enter") && negb shiftKey); [|split; reflexivity].
  send_cases (inputMessage s) now today s; [split; reflexivity|].
  rewrite H, H0 in G; discriminate.
Qed.

(* ================================================================== *)
(** ** The message log *)

(** C6: every operation only extends the log at its end; a message that was
    in the log is still there afterwards, unchanged and at the same
    position. *)
Theorem log_append_only (e : Event) (s : State) :
  (exists added, messages (fst (step e s)) = messages s ++ added)
  /\ (forall i m,
        nth_error (messages s) i = Some m ->
        nth_error (messages (fst (step e s))) i = Some m).
Proof.
  destruct (step_appends e s) as [added H].
  split; [exists added; exact H|].
  intros i m Hi. rewrite H, nth_error_app1; [exact Hi|].
  apply nth_error_Some; congruence.
Qed.

Lemma log_append_only_witness :
  nth_error
    (messages (fst (step (Response scenarioA 1704067204000) awaiting))) 0
  = Some (userMessage (js "Q1") 1704067201000 1704067201000).
Proof.
  apply (proj2 (log_append_only (Response scenarioA 1704067204000) awaiting)).
  reflexivity.
Defined.

(** The same over a whole session. *)
Lemma session_append_only (evs : list Event) (s : State) (i : nat)
  (m : Message.t) :
  nth_error (messages s) i = Some m ->
  nth_error (messages (fst (run evs s))) i = Some m.
Proof.
  destruct (run_appends evs s) as [added H].
  intros Hi. rewrite H, nth_error_app1; [exact Hi|].
  apply nth_error_Some; congruence.
Qed.

(** C7: identifiers are clock readings, so two messages appended within one
    millisecond share their identifier: the reachable log of
    [same_millisecond] holds both answers under the identifier
    1704067205000. *)
Theorem ids_collide_within_a_millisecond :
  reachable (fst (run same_millisecond mounted))
  /\ ~ unique_ids (messages (fst (run same_millisecond mounted))).
Proof.
  split.
  - exists 1704067200000%Z, same_millisecond. reflexivity.
  - intros U.
    apply (U 2%nat 3%nat (assistantMessage answer1 1704067205000)
             (assistantMessage answer2 1704067205000));
      [reflexivity | reflexivity | discriminate | reflexivity].
Qed.

(** What the identifiers do guarantee: a handler appends at most one
    message and names it by its clock reading, so a session whose readings
    grow strictly keeps the identifiers apart. *)
Lemma step_added (e : Event) (s : State) :
  messages (fst (step e s)) = messages s
  \/ exists m, messages (fst (step e s)) = messages s ++ [m]
              /\ id_reading e = Some (Message.id m).
Proof.
  destruct e; simpl; auto.
  - right; eexists; split; reflexivity.
  - right; eexists; split; reflexivity.
  - unfold loadQuickQueries. destruct (axios_get o); auto.
  - destruct (inputDisabled s); auto.
  - destruct (inputDisabled s); auto.
    unfold handleKeyPress.
    destruct (str_eqb key (js "Enter") && negb shiftKey); auto.
    send_cases (inputMessage s) now today s; auto.
    right; eexists; split; reflexivity.
  - destruct (sendDisabled s); auto.
    send_cases (inputMessage s) now today s; auto.
    right; eexists; split; reflexivity.
  - unfold handleQuickQuery.
    send_cases (QuickQuery.query q) now today s; auto.
    right; eexists; split; reflexivity.
  - unfold handleQuickQuery.
    send_cases suggestion now today s; auto.
    right; eexists; split; reflexivity.
Qed.

Lemma NoDup_unique_ids (log : list Message.t) :
  NoDup (map Message.id log) -> unique_ids log.
Proof.
  intros N i j mi mj Hi Hj Hij E. apply Hij.
  apply (proj1 (NoDup_nth_error (map Message.id log)) N).
  - rewrite length_map. apply nth_error_Some. congruence.
  - rewrite !nth_error_map, Hi, Hj. simpl. congruence.
Qed.

Lemma run_ids_below (evs : list Event) (s : State) (bound : Z) :
  readings_increase bound evs ->
  NoDup (map Message.id (messages s)) ->
  Forall (fun i => i <= bound)%Z (map Message.id (messages s)) ->
  NoDup (map Message.id (messages (fst (run evs s)))).
Proof.
  revert s bound; induction evs as [|e evs IH]; intros s bound R N B;
    [exact N|].
  rewrite run_cons; simpl. simpl in R.
  destruct (step_added e s) as [H | [m [H I]]].
  - rewrite <- H in N, B.
    destruct (id_reading e) as [now|]; [destruct R as [L R]|];
      [apply (IH _ now) | apply (IH _ bound)]; auto.
    eapply Forall_impl; [|exact B]. simpl; intros; lia.
  - rewrite I in R. destruct R as [L R].
    apply (IH _ (Message.id m)); [exact R | |]; rewrite H, map_app; simpl.
    + apply NoDup_app; repeat split; auto.
      * constructor; [intros []|constructor].
      * intros x Hx [<-|[]].
        rewrite Forall_forall in B. specialize (B _ Hx). lia.
    + apply Forall_app; split; [|constructor; [lia|constructor]].
      eapply Forall_impl; [|exact B]. simpl; intros; lia.
Qed.

(** X12: a session whose clock readings grow strictly from one appended
    message to the next keeps the identifiers of its log apart. *)
Lemma ids_unique_when_readings_increase (now : Z) (evs : list Event)
  (bound : Z) :
  readings_increase bound evs ->
  unique_ids (messages (fst (run evs (init now)))).
Proof.
  intros R. apply NoDup_unique_ids.
  apply (run_ids_below evs (init now) bound R); constructor.
Qed.

(* ================================================================== *)
(** ** The pending exchange *)

(** C8, amended: a submission of text that is not blank (neither empty nor
    white space only) on a connected client raises [isLoading]; a [response]
    or an [error] event lowers it; and [sendMessage] does not look at
    [isLoading]: called while it is raised, it appends one message of kind
    user holding the submitted text and emits one [message] event carrying
    that text all the same. *)
Theorem pending_exchange (s : State) :
  (forall message now today,
      blank message = false -> isConnected s = true ->
      isLoading (fst (sendMessage message now today s)) = true)
  /\ (forall data now, isLoading (fst (step (Response data now) s)) = false)
  /\ (forall data now, isLoading (fst (step (ErrorEvent data now) s)) = false)
  /\ (forall message now today,
        isLoading s = true ->
        blank message = false -> isConnected s = true ->
        messages (fst (sendMessage message now today s))
        = messages s ++ [Message.mk now user message (Date_at today) None None]
        /\ snd (sendMessage message now today s)
           = [Emit (js "message")
                   (Payload.mk message (sessionId s) true true true
                               (js "1h"))]).
Proof.
  repeat split; try reflexivity; intros;
    send_cases message now today s;
    solve [reflexivity | rewrite orb_true_iff, negb_true_iff in *;
           intuition congruence].
Qed.

Lemma pending_exchange_witness :
  isLoading connected = false
  /\ isLoading
       (fst (sendMessage (js "Q1") 1704067201000 1704067201000 connected))
     = true
  /\ isLoading awaiting = true
  /\ messages (fst (sendMessage (js "Q3") 1704067202000 1704067202000 awaiting))
     = messages awaiting
       ++ [Message.mk 1704067202000 user (js "Q3") (Date_at 1704067202000)
                      None None]
  /\ snd (sendMessage (js "Q3") 1704067202000 1704067202000 awaiting)
     = [Emit (js "message")
             (Payload.mk (js "Q3") (sessionId awaiting) true true true
                         (js "1h"))].
Proof.
  split; [reflexivity|].
  split; [apply (proj1 (pending_exchange connected)); reflexivity|].
  split; [reflexivity|].
  apply (proj2 (proj2 (proj2 (pending_exchange awaiting)))); reflexivity.
Defined.

(** C8 as stated fails: the text of two spaces is not empty and the client is
    connected, yet the submission is dropped by the guard on
    [message.trim()]: [isLoading] stays lowered, nothing is appended and
    nothing is emitted. *)
Lemma whitespace_submission_stays_idle :
  js "  " <> []
  /\ isConnected connected = true
  /\ isLoading connected = false
  /\ isLoading
       (fst (sendMessage (js "  ") 1704067203000 1704067203000 connected))
     = false
  /\ sendMessage (js "  ") 1704067203000 1704067203000 connected
     = (connected, []).
Proof.
  repeat split. discriminate.
Qed.

(* ================================================================== *)
(** ** The catalog loader *)

(** C9: when the request fails, [loadQuickQueries] returns normally, having
    only logged the failure: the state, [quickQueries] included, is the one
    it started in. *)
Theorem load_failure_keeps_catalog (o : HttpOutcome) (s : State) :
  load_failed o ->
  (exists e,
      loadQuickQueries o s
      = Return (s, [ConsoleError (js "Failed to load quick queries:") e]))
  /\ quickQueries (fst (step (QuickQueriesSettled o) s)) = quickQueries s.
Proof.
  intros F.
  assert (T : exists e, axios_get o = Throw e).
  { destruct o as [|status data]; simpl in *; [eauto|].
    destruct (200 <=? status)%Z eqn:L, (status <? 300)%Z eqn:U; simpl; eauto.
    exfalso; apply F; lia. }
  destruct T as [e T]. simpl. unfold loadQuickQueries. rewrite T; simpl.
  split; [exists e|]; reflexivity.
Qed.

Lemma load_failure_keeps_catalog_witness :
  (exists e,
      loadQuickQueries (Responded 503 [Q1]) mounted
      = Return (mounted, [ConsoleError (js "Failed to load quick queries:") e]))
  /\ quickQueries (fst (step (QuickQueriesSettled (Responded 503 [Q1])) mounted))
     = [].
Proof.
  apply (load_failure_keeps_catalog (Responded 503 [Q1]) mounted).
  simpl; lia.
Defined.

(** A successful load replaces the catalog, and a later failure keeps it. *)
Example stale_catalog_kept :
  quickQueries
    (fst (run [QuickQueriesSettled (Responded 200 [Q1; Q2; Q3]);
               QuickQueriesSettled Unreachable] mounted))
  = [Q1; Q2; Q3].
Proof. reflexivity. Qed.

(* ================================================================== *)
(** ** Outbound events *)

(** C10: every event the client emits during a session is a [message] event
    with the three [include_] flags set, the time range ["1h"] and the
    session identifier made at the first render, whichever control the text
    came from. *)
Theorem emitted_payload_constant (now : Z) (evs : list Event) (ev : jsstring)
  (p : Payload.t) :
  In (ev, p) (emitted (snd (run evs (init now)))) ->
  ev = js "message"
  /\ Payload.include_metrics p = true
  /\ Payload.include_logs p = true
  /\ Payload.include_traces p = true
  /\ Payload.time_range p = js "1h"
  /\ Payload.session_id p = js "session_" ++ Number_toString now.
Proof.
  intros H. apply run_emitted in H. destruct H as [-> [text ->]].
  repeat split.
Qed.

Lemma emitted_payload_constant_witness :
  In (js "message", messagePayload (js "Q3") mounted)
     (emitted (snd (run same_millisecond (init 1704067200000))))
  /\ Payload.include_metrics (messagePayload (js "Q3") mounted) = true
  /\ Payload.include_logs (messagePayload (js "Q3") mounted) = true
  /\ Payload.include_traces (messagePayload (js "Q3") mounted) = true
  /\ Payload.time_range (messagePayload (js "Q3") mounted) = js "1h"
  /\ Payload.session_id (messagePayload (js "Q3") mounted)
     = js "session_" ++ Number_toString 1704067200000.
Proof.
  assert (H : In (js "message", messagePayload (js "Q3") mounted)
                 (emitted (snd (run same_millisecond (init 1704067200000))))).
  { vm_compute. right; left; reflexivity. }
  split; [exact H|].
  apply (emitted_payload_constant 1704067200000 same_millisecond) in H.
  tauto.
Defined.

(** Each way of submitting reaches the same emit. *)
Example same_emit_from_every_control :
  let typed := fst (step (ChangeInput (js "Q1")) connected) in
  let expected := [(js "message", messagePayload (js "Q1") connected)] in
  emitted (snd (step (ClickSend 5 5) typed)) = expected
  /\ emitted (snd (step (KeyPress (js "Enter") false 5 5) typed)) = expected
  /\ emitted (snd (step (ClickQuickQuery Q1 5 5) connected)) = expected
  /\ emitted (snd (step (ClickSuggestion (js "Q1") 5 5) connected)) = expected.
Proof. repeat split. Qed.

(* ================================================================== *)
(** ** Objects: reading and writing own properties *)

Section OwnProperties.
Variable V : Type.
Implicit Types (o : JsObject V) (k : jsstring) (v : V).

Lemma own_get_set o k v : own_get (set o k v) k = Some v.
Proof.
  induction o as [|[k' v'] o IH]; simpl.
  - now rewrite str_eqb_refl.
  - destruct (str_eqb k' k) eqn:E; simpl; rewrite E; [reflexivity | exact IH].
Qed.

Lemma set_set o k v v' : set (set o k v) k v' = set o k v'.
Proof.
  induction o as [|[k' v''] o IH]; simpl.
  - now rewrite str_eqb_refl.
  - destruct (str_eqb k' k) eqn:E; simpl; rewrite E; [reflexivity|].
    now rewrite IH.
Qed.

Lemma set_fresh o k v : own_get o k = None -> set o k v = o ++ [(k, v)].
Proof.
  induction o as [|[k' v'] o IH]; simpl; [reflexivity|].
  destruct (str_eqb k' k); [discriminate|].
  intros H; now rewrite IH.
Qed.

(** An object whose names are all plain lists its entries in creation
    order. *)
Lemma Object_entries_plain o :
  Forall (fun e => is_array_index (fst e) = false) o ->
  Object_entries o = o.
Proof.
  intros H. unfold Object_entries.
  assert (I : index_entries o = []).
  { induction H as [|[k v] o Hk _ IH]; simpl; [reflexivity|].
    unfold is_array_index in Hk; simpl in Hk.
    destruct (array_index k); [discriminate | exact IH]. }
  rewrite I; simpl.
  induction H as [|e o Hk _ IH]; simpl; [reflexivity|].
  rewrite Hk; simpl. f_equal. apply IH.
  clear -I. destruct e as [k v]; simpl in I.
  destruct (array_index k); [|exact I].
  destruct (index_entries o) as [|[m e'] l]; simpl in I;
    [discriminate | destruct (n <=? m)%N; discriminate].
Qed.
End OwnProperties.

(* ================================================================== *)
(** ** Grouping *)

Lemma mem_In (k : jsstring) (ks : list jsstring) : mem k ks = true <-> In k ks.
Proof.
  unfold mem. rewrite existsb_exists. split.
  - intros [x [Hx E]]. apply str_eqb_eq in E; now subst.
  - intros H; exists k; split; [exact H | apply str_eqb_refl].
Qed.

Lemma mem_false (k : jsstring) (ks : list jsstring) :
  mem k ks = false <-> ~ In k ks.
Proof.
  rewrite <- mem_In. destruct (mem k ks); split; congruence.
Qed.

Lemma first_seen_In (k : jsstring) (ks : list jsstring) :
  In k (first_seen ks) <-> In k ks.
Proof.
  induction ks as [|a ks IH]; simpl; [tauto|].
  rewrite filter_In, IH, negb_true_iff, str_eqb_neq.
  destruct (list_eq_dec N.eq_dec a k); tauto.
Qed.

Lemma first_seen_NoDup (ks : list jsstring) : NoDup (first_seen ks).
Proof.
  induction ks as [|a ks IH]; simpl; constructor.
  - rewrite filter_In, str_eqb_refl. simpl. intros [_ H]; discriminate.
  - apply NoDup_filter, IH.
Qed.

Lemma first_seen_snoc (ks : list jsstring) (k : jsstring) :
  first_seen (ks ++ [k])
  = if mem k ks then first_seen ks else first_seen ks ++ [k].
Proof.
  induction ks as [|a ks IH]; simpl; [reflexivity|].
  rewrite IH. unfold mem in *. rewrite (str_eqb_sym k a).
  destruct (existsb (str_eqb k) ks) eqn:M.
  - now rewrite orb_true_r.
  - rewrite orb_false_r, filter_app; simpl.
    destruct (str_eqb a k); simpl; [now rewrite app_nil_r | reflexivity].
Qed.

Lemma in_category_snoc (c : jsstring) (qs : list QuickQuery.t)
  (q : QuickQuery.t) :
  in_category c (qs ++ [q])
  = in_category c qs ++ (if str_eqb (QuickQuery.category q) c then [q] else []).
Proof.
  unfold in_category. rewrite filter_app. simpl.
  destruct (str_eqb (QuickQuery.category q) c); reflexivity.
Qed.

Lemma in_category_absent (c : jsstring) (qs : list QuickQuery.t) :
  ~ In c (map QuickQuery.category qs) -> in_category c qs = [].
Proof.
  induction qs as [|q qs IH]; simpl; [reflexivity|].
  intros H. destruct (str_eqb (QuickQuery.category q) c) eqn:E.
  - apply str_eqb_eq in E. tauto.
  - apply IH. tauto.
Qed.

Section Buckets.
Variable F : jsstring -> list QuickQuery.t.

Lemma own_get_buckets (l : list jsstring) (k : jsstring) :
  own_get (map (fun c => (c, F c)) l) k
  = if mem k l then Some (F k) else None.
Proof.
  induction l as [|c l IH]; simpl; [reflexivity|].
  rewrite (str_eqb_sym k c). destruct (str_eqb c k) eqn:E; simpl.
  - apply str_eqb_eq in E; now subst.
  - exact IH.
Qed.

Lemma set_buckets (l : list jsstring) (k : jsstring)
  (v : list QuickQuery.t) :
  NoDup l -> In k l ->
  set (map (fun c => (c, F c)) l) k v
  = map (fun c => (c, if str_eqb c k then v else F c)) l.
Proof.
  induction 1 as [|c l Hc Hl IH]; simpl; [tauto|].
  destruct (str_eqb c k) eqn:E.
  - intros _. apply str_eqb_eq in E; subst c. f_equal.
    apply map_ext_in. intros c Hin.
    destruct (str_eqb c k) eqn:E'; [|reflexivity].
    apply str_eqb_eq in E'; subst; tauto.
  - intros [->|Hin]; [rewrite str_eqb_refl in E; discriminate|].
    now rewrite IH.
Qed.
End Buckets.

Lemma reduce_snoc {A B : Type} (f : B -> A -> Result B) (l : list A) (x : A)
  (acc : B) :
  reduce f (l ++ [x]) acc = acc' <- reduce f l acc ;; f acc' x.
Proof.
  revert acc; induction l as [|y l IH]; intros acc; simpl.
  - destruct (f acc x); reflexivity.
  - destruct (f acc y); simpl; [apply IH | reflexivity].
Qed.

(** One more query under a plain category: the callback turns the grouping
    of [qs] into the grouping of [qs ++ [q]]. *)
Lemma groupQuery_group (qs : list QuickQuery.t) (q : QuickQuery.t) :
  plain_name (QuickQuery.category q) = true ->
  groupQuery (group_first_seen qs) q = Return (group_first_seen (qs ++ [q])).
Proof.
  intros P. apply andb_true_iff in P. destruct P as [_ P].
  apply negb_true_iff in P.
  unfold groupQuery, group_first_seen, get.
  set (k := QuickQuery.category q) in *.
  set (ks := map QuickQuery.category qs).
  rewrite map_app; simpl. fold k ks.
  rewrite first_seen_snoc, own_get_buckets.
  assert (M : mem k (first_seen ks) = mem k ks).
  { destruct (mem k ks) eqn:M; [apply mem_In | apply mem_false];
      rewrite first_seen_In; [apply mem_In | apply mem_false]; exact M. }
  rewrite M. destruct (mem k ks) eqn:Mk.
  - rewrite own_get_buckets, M.
    rewrite set_buckets;
      [| apply first_seen_NoDup
       | apply (proj2 (first_seen_In _ _)), (proj1 (mem_In _ _)), Mk].
    f_equal. apply map_ext. intros c. rewrite in_category_snoc.
    fold k. rewrite (str_eqb_sym k c).
    destruct (str_eqb c k) eqn:E; [|now rewrite app_nil_r].
    apply str_eqb_eq in E; now subst.
  - rewrite P, own_get_set, set_set.
    rewrite set_fresh by (now rewrite own_get_buckets, M).
    rewrite map_app; simpl. f_equal. f_equal.
    + apply map_ext_in. intros c Hc. rewrite in_category_snoc. fold k.
      destruct (str_eqb k c) eqn:E; [|now rewrite app_nil_r].
      apply str_eqb_eq in E; subst c.
      apply (proj1 (first_seen_In _ _)), (proj2 (mem_In _ _)) in Hc.
      congruence.
    + rewrite in_category_snoc. fold k. rewrite str_eqb_refl.
      rewrite in_category_absent by (apply mem_false, Mk). reflexivity.
Qed.

Lemma quickQueryCategories_group (qs : list QuickQuery.t) :
  forallb (fun q => plain_name (QuickQuery.category q)) qs = true ->
  quickQueryCategories qs = Return (group_first_seen qs).
Proof.
  unfold quickQueryCategories.
  induction qs as [|q qs IH] using rev_ind; intros P; [reflexivity|].
  rewrite forallb_app in P. apply andb_true_iff in P. destruct P as [P Pq].
  simpl in Pq. rewrite andb_true_r in Pq.
  rewrite reduce_snoc, IH by exact P. simpl.
  now apply groupQuery_group.
Qed.

Lemma group_first_seen_names (qs : list QuickQuery.t) :
  forallb (fun q => plain_name (QuickQuery.category q)) qs = true ->
  Forall (fun e => is_array_index (fst e) = false) (group_first_seen qs).
Proof.
  intros P. unfold group_first_seen. rewrite Forall_map. simpl.
  apply Forall_forall. intros c Hc.
  apply (proj1 (first_seen_In _ _)), (proj1 (in_map_iff _ _ _)) in Hc.
  destruct Hc as [q [<- Hq]].
  rewrite forallb_forall in P. specialize (P q Hq).
  apply andb_true_iff in P. destruct P as [P _].
  now apply negb_true_iff in P.
Qed.

(** C3, amended: for a catalog whose categories are plain names, the
    categories are rendered in first-seen order and each with its queries in
    their original relative order.  Scenario C is an instance. *)
Theorem grouping_first_seen (qs : list QuickQuery.t) :
  forallb (fun q => plain_name (QuickQuery.category q)) qs = true ->
  quickQueryCategories qs = Return (group_first_seen qs)
  /\ renderedCategories qs = Return (group_first_seen qs).
Proof.
  intros P. unfold renderedCategories.
  rewrite quickQueryCategories_group by exact P. simpl.
  rewrite Object_entries_plain by (now apply group_first_seen_names).
  split; reflexivity.
Qed.

Lemma grouping_first_seen_witness :
  quickQueryCategories [Q1; Q2; Q3]
  = Return [(js "performance", [Q1; Q2]); (js "monitoring", [Q3])]
  /\ renderedCategories [Q1; Q2; Q3]
     = Return [(js "performance", [Q1; Q2]); (js "monitoring", [Q3])].
Proof.
  apply (grouping_first_seen [Q1; Q2; Q3]). reflexivity.
Defined.

(** C3 as stated fails: with the categories ["performance"] then ["500"],
    the array index ["500"] is listed first although it was seen last. *)
Lemma grouping_not_first_seen :
  renderedCategories [P1; P2]
  = Return [(js "500", [P2]); (js "performance", [P1])]
  /\ renderedCategories [P1; P2] <> Return (group_first_seen [P1; P2]).
Proof.
  split; [reflexivity | discriminate].
Qed.

(** A category named like a property of [Object.prototype] makes the
    grouping throw. *)
Example grouping_throws :
  quickQueryCategories [QuickQuery.mk (js "Q1") (js "constructor") (js "d1")]
  = Throw TypeError.
Proof. reflexivity. Qed.

(* ================================================================== *)
(** ** Sessions: what every handler does to the log and the flags *)

(** The four things a turn of the event loop can do to [messages],
    [isLoading] and the socket. *)
Lemma step_shape (e : Event) (s : State) :
  (messages (fst (step e s)) = messages s
   /\ isLoading (fst (step e s)) = isLoading s
   /\ emitted (snd (step e s)) = [])
  \/ (exists data now,
         messages (fst (step e s)) = messages s ++ [assistantMessage data now]
         /\ isLoading (fst (step e s)) = false
         /\ emitted (snd (step e s)) = [] /\ is_answer e = true)
  \/ (exists data now,
         messages (fst (step e s)) = messages s ++ [errorMessage data now]
         /\ isLoading (fst (step e s)) = false
         /\ emitted (snd (step e s)) = [] /\ is_answer e = true)
  \/ (exists text now today,
         blank text = false /\ isConnected s = true
         /\ messages (fst (step e s))
            = messages s ++ [userMessage text now today]
         /\ isLoading (fst (step e s)) = true
         /\ inputMessage (fst (step e s)) = []
         /\ emitted (snd (step e s)) = [(js "message", messagePayload text s)]).
Proof.
  assert (S : forall message now today,
             let r := sendMessage message now today s in
             (messages (fst r) = messages s
              /\ isLoading (fst r) = isLoading s /\ emitted (snd r) = [])
             \/ (blank message = false /\ isConnected s = true
                 /\ messages (fst r)
                    = messages s ++ [userMessage message now today]
                 /\ isLoading (fst r) = true
                 /\ inputMessage (fst r) = []
                 /\ emitted (snd r)
                    = [(js "message", messagePayload message s)])).
  { intros message now today.
    send_cases message now today s; [left | right]; repeat split; auto. }
  assert (S' : forall message now today,
             let r := sendMessage message now today s in
             (messages (fst r) = messages s
              /\ isLoading (fst r) = isLoading s /\ emitted (snd r) = [])
             \/ (exists text now' today',
                    blank text = false /\ isConnected s = true
                    /\ messages (fst r)
                       = messages s ++ [userMessage text now' today']
                    /\ isLoading (fst r) = true
                    /\ inputMessage (fst r) = []
                    /\ emitted (snd r)
                       = [(js "message", messagePayload text s)])).
  { intros message now today.
    destruct (S message now today) as [H|H]; [left; exact H|].
    right. exists message, now, today. exact H. }
  destruct e; simpl.
  - left; auto.
  - left; auto.
  - right; left. exists data, now. auto.
  - right; right; left. exists data, now. auto.
  - left. unfold loadQuickQueries. destruct (axios_get o); auto.
  - left. destruct (inputDisabled s); auto.
  - destruct (inputDisabled s); [left; auto|].
    unfold handleKeyPress.
    destruct (str_eqb key (js "Enter") && negb shiftKey); [|left; auto].
    specialize (S' (inputMessage s) now today).
    destruct (sendMessage (inputMessage s) now today s) as [s' fx].
    destruct S' as [H|H]; [left | right; right; right]; exact H.
  - destruct (sendDisabled s); [left; auto|].
    destruct (S' (inputMessage s) now today) as [H|H];
      [left | right; right; right]; exact H.
  - destruct (S' (QuickQuery.query q) now today) as [H|H];
      [left | right; right; right]; exact H.
  - destruct (S' suggestion now today) as [H|H];
      [left | right; right; right]; exact H.
Qed.

(** A property kept by every handler holds along every run. *)
Lemma run_invariant (P : State -> Prop) :
  (forall e s, P s -> P (fst (step e s))) ->
  forall evs s, P s -> P (fst (run evs s)).
Proof.
  intros K evs. induction evs as [|e evs IH]; intros s H; [exact H|].
  rewrite run_cons; simpl. apply IH, K, H.
Qed.

(** X1: While [isLoading] is raised the last entry of the log is the user's:
    the spinner is never shown under an answer. *)
Theorem loading_follows_user_message (now : Z) (evs : list Event) :
  isLoading (fst (run evs (init now))) = true ->
  exists older m,
    messages (fst (run evs (init now))) = older ++ [m]
    /\ Message.type m = user.
Proof.
  apply (run_invariant
           (fun s => isLoading s = true ->
                     exists older m,
                       messages s = older ++ [m] /\ Message.type m = user));
    [|simpl; discriminate].
  intros e s IH L.
  destruct (step_shape e s)
    as [[M [L' _]] | [[d [n [_ [L' _]]]] | [[d [n [_ [L' _]]]]
       | [text [n [t [_ [_ [M _]]]]]]]]].
  - rewrite M. apply IH. congruence.
  - congruence.
  - congruence.
  - rewrite M. eexists _, _; split; reflexivity.
Qed.

Lemma loading_follows_user_message_witness :
  exists older m,
    messages (fst (run [Connect; ClickQuickQuery Q1 5 5] (init 0)))
    = older ++ [m]
    /\ Message.type m = user.
Proof.
  apply (loading_follows_user_message 0 [Connect; ClickQuickQuery Q1 5 5]).
  reflexivity.
Defined.

(** X2: Nothing but a [response] or an [error] event lowers [isLoading]: without
    one the client keeps waiting, whatever else happens, and the text field
    and the send button stay disabled. *)
Theorem loading_until_answer (evs : list Event) (s : State) :
  isLoading s = true ->
  forallb (fun e => negb (is_answer e)) evs = true ->
  isLoading (fst (run evs s)) = true
  /\ inputDisabled (fst (run evs s)) = true
  /\ sendDisabled (fst (run evs s)) = true.
Proof.
  intros L A.
  assert (K : isLoading (fst (run evs s)) = true).
  { revert s L; induction evs as [|e evs IH]; intros s L; [exact L|].
    simpl in A. apply andb_true_iff in A. destruct A as [Ae A].
    rewrite run_cons; simpl. apply IH; [exact A|].
    destruct (step_shape e s)
      as [[_ [L' _]] | [[d [n [_ [_ [_ X]]]]] | [[d [n [_ [_ [_ X]]]]]
         | [text [n [t [_ [_ [_ [L' _]]]]]]]]]];
      try congruence; rewrite X in Ae; discriminate. }
  unfold inputDisabled, sendDisabled. rewrite K.
  repeat split; apply orb_true_r.
Qed.

Lemma loading_until_answer_witness :
  isLoading (fst (run [Disconnect; Connect; ChangeInput (js "hello");
                       QuickQueriesSettled Unreachable] awaiting)) = true
  /\ inputDisabled (fst (run [Disconnect; Connect; ChangeInput (js "hello");
                              QuickQueriesSettled Unreachable] awaiting)) = true
  /\ sendDisabled (fst (run [Disconnect; Connect; ChangeInput (js "hello");
                             QuickQueriesSettled Unreachable] awaiting)) = true.
Proof.
  apply loading_until_answer; reflexivity.
Defined.

(** X3: Only assistant messages carry metadata or suggestions: under a user or
    an error message of a session no metadata block and no chip is
    rendered. *)
Theorem only_answers_are_annotated (now : Z) (evs : list Event) :
  Forall (fun m => Message.type m <> assistant ->
                   formatMetadata (Message.metadata m) = None
                   /\ suggestionChips m = [])
         (messages (fst (run evs (init now)))).
Proof.
  apply (run_invariant
           (fun s => Forall (fun m => Message.type m <> assistant ->
                                      formatMetadata (Message.metadata m) = None
                                      /\ suggestionChips m = [])
                            (messages s))); [|constructor].
  intros e s IH.
  destruct (step_shape e s)
    as [[M _] | [[d [n [M _]]] | [[d [n [M _]]]
       | [text [n [t [_ [_ [M _]]]]]]]]]; rewrite M; auto;
    apply Forall_app; split; auto; constructor; auto; simpl.
  intros N; exfalso; apply N; reflexivity.
Qed.

(** X4: The user messages of a session are exactly the texts sent to the
    server: one [message] event per user message, with the same text, in the
    same order. *)
Theorem user_messages_are_the_emits (evs : list Event) (s : State) :
  userTexts (messages (fst (run evs s)))
  = userTexts (messages s) ++ emittedTexts (snd (run evs s)).
Proof.
  revert s; induction evs as [|e evs IH]; intros s.
  - simpl. unfold emittedTexts; simpl. now rewrite app_nil_r.
  - rewrite run_cons; simpl. rewrite IH.
    unfold emittedTexts. rewrite emitted_app, map_app, app_assoc. f_equal.
    unfold userTexts.
    destruct (step_shape e s)
      as [[M [_ E]] | [[d [n [M [_ [E _]]]]] | [[d [n [M [_ [E _]]]]]
         | [text [n [t [_ [_ [M [_ [_ E]]]]]]]]]]];
      rewrite M, E; simpl; rewrite ?filter_app, ?map_app; simpl;
      rewrite ?app_nil_r; reflexivity.
Qed.

(** X5: The catalog is the data of the latest successful load, and nothing else
    ever writes it. *)
Theorem catalog_is_latest_load (evs : list Event) (s : State) :
  quickQueries (fst (run evs s)) = fold_left catalog_after evs (quickQueries s).
Proof.
  revert s; induction evs as [|e evs IH]; intros s; [reflexivity|].
  rewrite run_cons; simpl. rewrite IH. f_equal.
  destruct e; simpl; try reflexivity.
  - unfold loadQuickQueries.
    destruct o as [|status data]; simpl; [reflexivity|].
    destruct ((200 <=? status)%Z && (status <? 300)%Z); reflexivity.
  - destruct (inputDisabled s); reflexivity.
  - destruct (inputDisabled s); [reflexivity|].
    unfold handleKeyPress.
    destruct (str_eqb key (js "Enter") && negb shiftKey); [|reflexivity].
    send_cases (inputMessage s) now today s; reflexivity.
  - destruct (sendDisabled s); [reflexivity|].
    send_cases (inputMessage s) now today s; reflexivity.
  - unfold handleQuickQuery.
    send_cases (QuickQuery.query q) now today s; reflexivity.
  - unfold handleQuickQuery.
    send_cases suggestion now today s; reflexivity.
Qed.

(** X6: [isConnected] mirrors the latest [connect] or [disconnect] event of the
    socket, and nothing else ever writes it. *)
Theorem connection_is_latest_socket_event (evs : list Event) (s : State) :
  isConnected (fst (run evs s))
  = fold_left connection_after evs (isConnected s).
Proof.
  revert s; induction evs as [|e evs IH]; intros s; [reflexivity|].
  rewrite run_cons; simpl. rewrite IH. f_equal.
  destruct e; simpl; try reflexivity.
  - unfold loadQuickQueries. destruct (axios_get o); reflexivity.
  - destruct (inputDisabled s); reflexivity.
  - destruct (inputDisabled s); [reflexivity|].
    unfold handleKeyPress.
    destruct (str_eqb key (js "Enter") && negb shiftKey); [|reflexivity].
    send_cases (inputMessage s) now today s; [reflexivity | auto].
  - destruct (sendDisabled s); [reflexivity|].
    send_cases (inputMessage s) now today s; [reflexivity | auto].
  - unfold handleQuickQuery.
    send_cases (QuickQuery.query q) now today s; [reflexivity | auto].
  - unfold handleQuickQuery.
    send_cases suggestion now today s; [reflexivity | auto].
Qed.

(** X7: Once a message is in the log the welcome block is gone for good. *)
Theorem welcome_never_returns (evs : list Event) (s : State) :
  showsWelcome s = false -> showsWelcome (fst (run evs s)) = false.
Proof.
  unfold showsWelcome. destruct (run_appends evs s) as [added ->].
  destruct (messages s); [discriminate | reflexivity].
Qed.

Lemma welcome_never_returns_witness :
  showsWelcome (fst (run [Disconnect; Response scenarioA 9] awaiting)) = false.
Proof. apply welcome_never_returns. reflexivity. Defined.

(* ================================================================== *)
(** ** The controls *)

(** X8: Any key but Enter, and Enter with Shift held, is left to the text field:
    nothing is sent, nothing changes and the default action is kept. *)
Theorem handleKeyPress_ignores_other_keys (key : jsstring) (shiftKey : bool)
  (now today : Z) (s : State) :
  key <> js "Enter" \/ shiftKey = true ->
  handleKeyPress key shiftKey now today s = (s, []).
Proof.
  intros H. unfold handleKeyPress.
  destruct (str_eqb key (js "Enter")) eqn:K; [|reflexivity].
  apply str_eqb_eq in K. destruct H as [H | ->]; [contradiction | reflexivity].
Qed.

Lemma handleKeyPress_ignores_other_keys_witness :
  handleKeyPress (js "Enter") true 5 5
    (fst (step (ChangeInput (js "line one")) connected))
  = (fst (step (ChangeInput (js "line one")) connected), []).
Proof. apply handleKeyPress_ignores_other_keys. right; reflexivity. Defined.

(** X9: Enter on a blank draft, or while disconnected, is swallowed: the default
    action is prevented although nothing is sent and nothing changes. *)
Theorem handleKeyPress_swallows_enter (now today : Z) (s : State) :
  blank (inputMessage s) || negb (isConnected s) = true ->
  handleKeyPress (js "Enter") false now today s = (s, [PreventDefault]).
Proof.
  intros G. unfold handleKeyPress.
  rewrite str_eqb_refl; simpl.
  send_cases (inputMessage s) now today s; [reflexivity|].
  rewrite H, H0 in G; discriminate.
Qed.

Lemma handleKeyPress_swallows_enter_witness :
  handleKeyPress (js "Enter") false 5 5 connected
  = (connected, [PreventDefault]).
Proof. apply handleKeyPress_swallows_enter. reflexivity. Defined.

(** X10: An accepted click on a quick-query card or a suggestion chip sends the
    clicked text and throws away whatever draft the text field held. *)
Theorem handleQuickQuery_discards_draft (query : jsstring) (now today : Z)
  (s : State) :
  blank query = false -> isConnected s = true ->
  inputMessage (fst (handleQuickQuery query now today s)) = []
  /\ messages (fst (handleQuickQuery query now today s))
     = messages s ++ [userMessage query now today]
  /\ emittedTexts (snd (handleQuickQuery query now today s)) = [query].
Proof.
  intros B C. unfold handleQuickQuery.
  send_cases query now today s; [|repeat split].
  rewrite B, C in H; discriminate.
Qed.

Lemma handleQuickQuery_discards_draft_witness :
  inputMessage (fst (step (ChangeInput (js "my draft")) connected))
  = js "my draft"
  /\ inputMessage
       (fst (handleQuickQuery (js "Q1") 5 5
               (fst (step (ChangeInput (js "my draft")) connected)))) = []
  /\ messages
       (fst (handleQuickQuery (js "Q1") 5 5
               (fst (step (ChangeInput (js "my draft")) connected))))
     = messages (fst (step (ChangeInput (js "my draft")) connected))
       ++ [userMessage (js "Q1") 5 5]
  /\ emittedTexts
       (snd (handleQuickQuery (js "Q1") 5 5
               (fst (step (ChangeInput (js "my draft")) connected))))
     = [js "Q1"].
Proof.
  split; [reflexivity|].
  apply handleQuickQuery_discards_draft; reflexivity.
Defined.

(** X11: An enabled send button never runs into the silent return of
    [sendMessage], and the button, the Enter key and a chip with the same
    text all lead to the same state and the same emit. *)
Theorem controls_agree (now today : Z) (s : State) :
  sendDisabled s = false ->
  step (ClickSend now today) s
  = (mkState (messages s ++ [userMessage (inputMessage s) now today]) []
             true true (quickQueries s) (sessionId s),
     [Emit (js "message") (messagePayload (inputMessage s) s)])
  /\ step (ClickSuggestion (inputMessage s) now today) s
     = step (ClickSend now today) s
  /\ fst (step (KeyPress (js "Enter") false now today) s)
     = fst (step (ClickSend now today) s)
  /\ emitted (snd (step (KeyPress (js "Enter") false now today) s))
     = emitted (snd (step (ClickSend now today) s)).
Proof.
  intros D. simpl. unfold inputDisabled, handleKeyPress, handleQuickQuery.
  rewrite D. unfold sendDisabled in D. rewrite truthy_trim in D.
  apply orb_false_iff in D. destruct D as [D L].
  apply orb_false_iff in D. destruct D as [B C].
  rewrite C, L, str_eqb_refl; simpl.
  send_cases (inputMessage s) now today s; [|repeat split].
  rewrite negb_involutive in B. rewrite B in H. simpl in H.
  rewrite H in C; discriminate.
Qed.

Lemma controls_agree_witness :
  let typed := fst (step (ChangeInput (js "Show CPU usage")) connected) in
  step (ClickSend 5 5) typed
  = (mkState (messages typed ++ [userMessage (inputMessage typed) 5 5]) []
             true true (quickQueries typed) (sessionId typed),
     [Emit (js "message") (messagePayload (inputMessage typed) typed)])
  /\ step (ClickSuggestion (inputMessage typed) 5 5) typed
     = step (ClickSend 5 5) typed
  /\ fst (step (KeyPress (js "Enter") false 5 5) typed)
     = fst (step (ClickSend 5 5) typed)
  /\ emitted (snd (step (KeyPress (js "Enter") false 5 5) typed))
     = emitted (snd (step (ClickSend 5 5) typed)).
Proof.
  intros typed. apply controls_agree. reflexivity.
Defined.

(** A session with strictly growing clock readings and its log of
    distinct identifiers. *)
Lemma ids_unique_when_readings_increase_witness :
  unique_ids
    (messages
       (fst (run [Connect; ClickQuickQuery Q1 10 10; Response scenarioA 20;
                  ClickQuickQuery Q3 30 30; ErrorEvent scenarioB 40]
                 (init 0)))).
Proof.
  apply (ids_unique_when_readings_increase 0 _ 0). simpl. lia.
Defined.

(* ================================================================== *)
(** ** Grouping: every catalog *)

Lemma reduce_app {A B : Type} (f : B -> A -> Result B) (l1 l2 : list A)
  (acc : B) :
  reduce f (l1 ++ l2) acc = acc' <- reduce f l1 acc ;; reduce f l2 acc'.
Proof.
  revert acc; induction l1 as [|y l1 IH]; intros acc; simpl; [reflexivity|].
  destruct (f acc y); simpl; [apply IH | reflexivity].
Qed.

(** The callback on a category that is not found on the prototype, be it an
    array index or not. *)
Lemma groupQuery_own (qs : list QuickQuery.t) (q : QuickQuery.t) :
  inherited_name (QuickQuery.category q) = false ->
  groupQuery (group_first_seen qs) q = Return (group_first_seen (qs ++ [q])).
Proof.
  intros P.
  unfold groupQuery, group_first_seen, get.
  set (k := QuickQuery.category q) in *.
  set (ks := map QuickQuery.category qs).
  rewrite map_app; simpl. fold k ks.
  rewrite first_seen_snoc, own_get_buckets.
  assert (M : mem k (first_seen ks) = mem k ks).
  { destruct (mem k ks) eqn:M; [apply mem_In | apply mem_false];
      rewrite first_seen_In; [apply mem_In | apply mem_false]; exact M. }
  rewrite M. destruct (mem k ks) eqn:Mk.
  - rewrite own_get_buckets, M.
    rewrite set_buckets;
      [| apply first_seen_NoDup
       | apply (proj2 (first_seen_In _ _)), (proj1 (mem_In _ _)), Mk].
    f_equal. apply map_ext. intros c. rewrite in_category_snoc.
    fold k. rewrite (str_eqb_sym k c).
    destruct (str_eqb c k) eqn:E; [|now rewrite app_nil_r].
    apply str_eqb_eq in E; now subst.
  - rewrite P, own_get_set, set_set.
    rewrite set_fresh by (now rewrite own_get_buckets, M).
    rewrite map_app; simpl. f_equal. f_equal.
    + apply map_ext_in. intros c Hc. rewrite in_category_snoc. fold k.
      destruct (str_eqb k c) eqn:E; [|now rewrite app_nil_r].
      apply str_eqb_eq in E; subst c.
      apply (proj1 (first_seen_In _ _)), (proj2 (mem_In _ _)) in Hc.
      congruence.
    + rewrite in_category_snoc. fold k. rewrite str_eqb_refl.
      rewrite in_category_absent by (apply mem_false, Mk). reflexivity.
Qed.

Lemma quickQueryCategories_own (qs : list QuickQuery.t) :
  no_inherited_category qs = true ->
  quickQueryCategories qs = Return (group_first_seen qs).
Proof.
  unfold quickQueryCategories, no_inherited_category.
  induction qs as [|q qs IH] using rev_ind; intros P; [reflexivity|].
  rewrite forallb_app in P. apply andb_true_iff in P. destruct P as [P Pq].
  simpl in Pq. rewrite andb_true_r in Pq. apply negb_true_iff in Pq.
  rewrite reduce_snoc, IH by exact P. simpl.
  now apply groupQuery_own.
Qed.

(** A catalog with an inherited category name, cut at the first one. *)
Lemma first_inherited (qs : list QuickQuery.t) :
  no_inherited_category qs = false ->
  exists pre q post,
    qs = pre ++ q :: post
    /\ no_inherited_category pre = true
    /\ inherited_name (QuickQuery.category q) = true.
Proof.
  unfold no_inherited_category.
  induction qs as [|q qs IH]; simpl; [discriminate|].
  destruct (inherited_name (QuickQuery.category q)) eqn:I; simpl.
  - intros _. exists [], q, qs. auto.
  - intros H. destruct (IH H) as [pre [q' [post [-> [P I']]]]].
    exists (q :: pre), q', post. simpl. rewrite I, P. auto.
Qed.

Lemma groupQuery_inherited (qs : list QuickQuery.t) (q : QuickQuery.t) :
  no_inherited_category qs = true ->
  inherited_name (QuickQuery.category q) = true ->
  groupQuery (group_first_seen qs) q = Throw TypeError.
Proof.
  intros P I. unfold groupQuery, group_first_seen, get.
  rewrite own_get_buckets.
  assert (M : mem (QuickQuery.category q)
                  (first_seen (map QuickQuery.category qs)) = false).
  { apply mem_false. rewrite first_seen_In, in_map_iff.
    intros [q' [E Hq']]. unfold no_inherited_category in P.
    rewrite forallb_forall in P. specialize (P q' Hq').
    rewrite E, I in P. discriminate. }
  rewrite M, I. simpl. rewrite own_get_buckets, M. reflexivity.
Qed.

(** X13: The grouping throws exactly when some category is a name found on
    [Object.prototype]; otherwise the object holds one bucket per category,
    created in first-seen order, array indices included. *)
Theorem grouping_outcome (qs : list QuickQuery.t) :
  quickQueryCategories qs
  = if no_inherited_category qs then Return (group_first_seen qs)
    else Throw TypeError.
Proof.
  destruct (no_inherited_category qs) eqn:N.
  - now apply quickQueryCategories_own.
  - destruct (first_inherited qs N) as [pre [q [post [-> [P I]]]]].
    unfold quickQueryCategories. rewrite reduce_app.
    fold (quickQueryCategories pre). rewrite quickQueryCategories_own by exact P.
    simpl. rewrite groupQuery_inherited by assumption. reflexivity.
Qed.

(** [Object.entries] lists every own property once. *)
Lemma insert_by_index_perm {E : Type} (n : N) (e : E) (l : list (N * E)) :
  Permutation (insert_by_index n e l) ((n, e) :: l).
Proof.
  induction l as [|[m e'] l IH]; simpl; [reflexivity|].
  destruct (n <=? m)%N; [reflexivity|].
  rewrite IH. apply perm_swap.
Qed.

Lemma Object_entries_perm {V : Type} (o : JsObject V) :
  Permutation (Object_entries o) o.
Proof.
  unfold Object_entries, is_array_index.
  induction o as [|[k v] o IH]; simpl; [reflexivity|].
  destruct (array_index k) as [n|]; simpl.
  - rewrite (Permutation_map snd (insert_by_index_perm n (k, v) _)). simpl.
    now constructor.
  - rewrite <- Permutation_middle. now constructor.
Qed.

Lemma filter_all {A : Type} (f : A -> bool) (l : list A) :
  (forall x, In x l -> f x = true) -> filter f l = l.
Proof.
  induction l as [|a l IH]; simpl; intros H; [reflexivity|].
  rewrite (H a) by auto. f_equal. apply IH. auto.
Qed.

Lemma flat_map_without (G : jsstring -> list QuickQuery.t)
  (k : jsstring) (l : list jsstring) :
  NoDup l -> (In k l \/ G k = []) ->
  Permutation
    (G k ++ flat_map G (filter (fun c => negb (str_eqb k c)) l))
    (flat_map G l).
Proof.
  induction 1 as [|a l Ha Hl IH]; intros H; simpl.
  - destruct H as [[] | ->]. reflexivity.
  - destruct (str_eqb k a) eqn:E; simpl.
    + apply str_eqb_eq in E; subst a.
      rewrite filter_all; [reflexivity|].
      intros x Hx. apply negb_true_iff, str_eqb_neq. congruence.
    + rewrite Permutation_app_swap_app. apply Permutation_app_head, IH.
      destruct H as [[->|H]|H]; auto.
      rewrite str_eqb_refl in E; discriminate.
Qed.

Lemma group_first_seen_flat (qs : list QuickQuery.t) :
  Permutation (flat_map snd (group_first_seen qs)) qs.
Proof.
  unfold group_first_seen. rewrite flat_map_concat_map, map_map; simpl.
  rewrite <- flat_map_concat_map.
  induction qs as [|q qs IH]; simpl; [reflexivity|].
  rewrite str_eqb_refl. simpl. constructor.
  set (k := QuickQuery.category q).
  apply Permutation_trans with (2 := IH).
  eapply Permutation_trans;
    [| apply (flat_map_without (fun c => in_category c qs) k);
       [apply first_seen_NoDup |]].
  - apply Permutation_app_head.
    rewrite !flat_map_concat_map. apply Permutation_refl'. f_equal.
    apply map_ext_in. intros c Hc. apply filter_In in Hc.
    destruct Hc as [_ Hc]. apply negb_true_iff in Hc.
    unfold in_category; simpl. fold k. now rewrite Hc.
  - destruct (mem k (map QuickQuery.category qs)) eqn:M.
    + left. apply first_seen_In, mem_In, M.
    + right. apply in_category_absent, mem_false, M.
Qed.

(** X14: Whenever the grouping returns, the panel shows every query exactly once,
    under its own category, in its original order among the queries of that
    category; no category is shown twice or empty. *)
Theorem grouping_partitions (qs : list QuickQuery.t) :
  no_inherited_category qs = true ->
  exists buckets,
    renderedCategories qs = Return buckets
    /\ Permutation (flat_map snd buckets) qs
    /\ NoDup (map fst buckets)
    /\ Forall (fun cb => snd cb = in_category (fst cb) qs /\ snd cb <> [])
              buckets.
Proof.
  intros P. exists (Object_entries (group_first_seen qs)).
  unfold renderedCategories. rewrite quickQueryCategories_own by exact P.
  pose proof (Object_entries_perm (group_first_seen qs)) as E.
  split; [reflexivity|]. split; [|split].
  - rewrite (Permutation_flat_map snd E). apply group_first_seen_flat.
  - apply (Permutation_NoDup (Permutation_sym (Permutation_map fst E))).
    unfold group_first_seen. rewrite map_map; simpl. rewrite map_id.
    apply first_seen_NoDup.
  - apply (Permutation_Forall (Permutation_sym E)).
    unfold group_first_seen. rewrite Forall_map; simpl.
    apply Forall_forall. intros c Hc. split; [reflexivity|].
    apply (proj1 (first_seen_In _ _)), (proj1 (in_map_iff _ _ _)) in Hc.
    destruct Hc as [q [<- Hq]]. intros N.
    assert (I : In q (in_category (QuickQuery.category q) qs)).
    { apply filter_In. split; [exact Hq | apply str_eqb_refl]. }
    rewrite N in I. exact I.
Qed.

Lemma grouping_partitions_witness :
  exists buckets,
    renderedCategories [P1; P2; Q3; Q2] = Return buckets
    /\ Permutation (flat_map snd buckets) [P1; P2; Q3; Q2]
    /\ NoDup (map fst buckets)
    /\ Forall (fun cb => snd cb = in_category (fst cb) [P1; P2; Q3; Q2]
                         /\ snd cb <> [])
              buckets.
Proof.
  apply grouping_partitions. reflexivity.
Defined.

(* ================================================================== *)
(** ** The system status page *)

(** X15: However the request ends, [fetchStatus] ends normally with [loading]
    lowered.  After a success the page shows the fresh status; after a
    failure it shows the error alert alone, the last good status being kept
    in the state but hidden.  And every refresh first puts the spinner in
    place of whatever was shown. *)
Theorem fetchStatus_outcome (o : StatusOutcome) (st : StatusState) :
  fst (fst (fetchStatus_settle o st)) = None
  /\ loading (statusStep (FetchSettled o) st) = false
  /\ statusView (statusStep (FetchSettled o) st)
     = match axios_get_status o with
       | Return data => ViewPage data
       | Throw _ => ViewError (js "Failed to fetch system status")
       end
  /\ systemStatus (statusStep (FetchSettled o) st)
     = match axios_get_status o with
       | Return data => data
       | Throw _ => systemStatus st
       end
  /\ statusView (statusStep FetchBegin st) = ViewSpinner.
Proof.
  simpl. unfold fetchStatus_settle, try_catch_finally.
  destruct (axios_get_status o); repeat split.
Qed.

(** X16: The page proper is shown only right after a successful answer,
    and what it shows is the body of that answer as it was served: never a
    status kept from an earlier request, and never anything before the first
    answer. *)
Theorem status_page_shows_latest_answer (evs : list StatusEvent)
  (shown : option StatusData.t) :
  statusView (statusRun evs) = ViewPage shown ->
  exists earlier status,
    evs = earlier ++ [FetchSettled (StatusResponded status shown)]
    /\ (200 <= status < 300)%Z.
Proof.
  unfold statusRun.
  destruct evs as [|e evs] using rev_ind; [discriminate|].
  rewrite fold_left_app; simpl.
  set (st := fold_left _ evs statusInit). clearbody st.
  destruct e as [|o]; simpl; [discriminate|].
  unfold fetchStatus_settle, try_catch_finally, statusView.
  destruct o as [|status data]; simpl; [discriminate|].
  destruct (200 <=? status)%Z eqn:L, (status <? 300)%Z eqn:U; simpl;
    try discriminate.
  intros [= <-]. exists evs, status. split; [reflexivity | lia].
Qed.

Lemma status_page_shows_latest_answer_witness :
  exists earlier status,
    [FetchBegin; FetchSettled StatusUnreachable; FetchBegin;
     FetchSettled
       (StatusResponded 200
          (Some (StatusData.mk (Some (js "healthy")) [] None)))]
    = earlier
      ++ [FetchSettled
            (StatusResponded status
               (Some (StatusData.mk (Some (js "healthy")) [] None)))]
    /\ (200 <= status < 300)%Z.
Proof.
  apply status_page_shows_latest_answer. reflexivity.
Defined.

(** A success whose body is [null] is stored as it is, and the page is
    rendered without a status. *)
Example status_page_without_data :
  statusView (statusRun [FetchBegin; FetchSettled (StatusResponded 200 None)])
  = ViewPage None.
Proof. reflexivity. Qed.

(** X17: The icon and the chip of a status never disagree: they carry the same
    colour, except that an unrecognised status gets the unknown icon in
    [disabled] beside a chip in [default]. *)
Theorem icon_and_chip_agree (status : jsstring) :
  snd (getStatusIcon status) = getStatusColor status
  \/ (getStatusIcon status = (UnknownIcon, disabled)
      /\ getStatusColor status = default_color).
Proof.
  unfold getStatusIcon, getStatusColor.
  destruct (str_eqb status (js "healthy")); [left; reflexivity|].
  destruct (str_eqb status (js "unhealthy")); [left; reflexivity|].
  destruct (str_eqb status (js "degraded")); [left; reflexivity|].
  destruct (str_eqb status (js "unreachable")); [left; reflexivity|].
  right; split; reflexivity.
Qed.

(** X18: Only the first underscore of a service name becomes a space: what
    precedes it and everything after it, further underscores included, is
    shown as it is; a name without underscore is shown unchanged. *)
Theorem replace_underscore_first_only (name : jsstring) :
  (~ In 95%N name -> replace_underscore name = name)
  /\ (forall before after,
        name = before ++ 95%N :: after -> ~ In 95%N before ->
        replace_underscore name = before ++ 32%N :: after).
Proof.
  split.
  - induction name as [|c name IH]; simpl; [reflexivity|].
    intros H. destruct (N.eqb c 95) eqn:E.
    + apply N.eqb_eq in E. tauto.
    + rewrite IH; tauto.
  - intros before after -> H.
    induction before as [|c before IH]; simpl; [reflexivity|].
    destruct (N.eqb c 95) eqn:E.
    + apply N.eqb_eq in E. simpl in H. tauto.
    + rewrite IH; [reflexivity|]. simpl in H. tauto.
Qed.

Lemma replace_underscore_first_only_witness :
  replace_underscore (js "vector_store_db") = js "vector store_db".
Proof.
  apply (proj2 (replace_underscore_first_only (js "vector_store_db"))
               (js "vector") (js "store_db")).
  - reflexivity.
  - vm_compute. intuition discriminate.
Defined.
